(** * The CNS naming service (src/cns.ts): a shallow embedding and its properties

    The class [Cns] of src/cns.ts binds a name-hashing engine to a two-step
    registry/resolver lookup.  The first half of this file holds the
    definitions:

    - [Keccak], [Hex], [utf8], [Namehash]: the hash function and the
      name-hashing recursion of ./cns/namehash;
    - [Regex]: regular expressions with a derivative-based test, for the
      pattern of [isSupportedDomain];
    - errors, contracts, the transport and the type [Promise] of
      asynchronous, fallible calls;
    - [Cns]: the methods of the class, in the order of the source.

    The second half holds the properties.

    Conventions.  A JavaScript string is a [string], one [ascii] per code
    unit, so code units are below 256.  A value that may be [undefined] or
    [null] is an [option].  A synchronous function that may throw returns
    [exn + A]; an [async] one returns a [Promise A]. *)

From Stdlib Require Import ZArith List String Ascii Bool Lia.
Import ListNotations.

Local Open Scope string_scope.
Local Open Scope Z_scope.

(* ================================================================== *)
(** * Keccak-256 *)

(** Modelled from the spec: the hash function [H] of the Namehash Engine
    (section 4.1) lives in ./cns/namehash, which is not among the sources.
    The spec calls it "the system's fixed cryptographic hash function"; the
    regression values of Cns.test.ts are those of Keccak-256 (the hash of
    Ethereum name hashing), which is what [sha3] is here: Keccak-f[1600],
    rate 136 bytes, padding 0x01 .. 0x80, 32 bytes of output. *)
Module Keccak.

Definition mask64 : Z := 2 ^ 64 - 1.

Definition rotl64 (x n : Z) : Z :=
  Z.land (Z.lor (Z.shiftl x n) (Z.shiftr x (64 - n))) mask64.

Definition not64 (x : Z) : Z := Z.lxor x mask64.

(** The state: 25 lanes of 64 bits, lane (x, y) at index x + 5 * y. *)
Definition state := list Z.

Definition lane (st : state) (x y : nat) : Z :=
  nth (x mod 5 + 5 * (y mod 5))%nat st 0.

Definition lanes (f : nat -> nat -> Z) : state :=
  map (fun i => f (i mod 5)%nat (i / 5)%nat) (seq 0 25).

Definition column (st : state) (x : nat) : Z :=
  Z.lxor (lane st x 0)
    (Z.lxor (lane st x 1)
       (Z.lxor (lane st x 2) (Z.lxor (lane st x 3) (lane st x 4)))).

Definition theta (st : state) : state :=
  lanes (fun x y =>
    Z.lxor (lane st x y)
      (Z.lxor (column st (x + 4)) (rotl64 (column st (x + 1)) 1))).

Definition rotation_offsets : list Z :=
  [ 0;  1; 62; 28; 27;
   36; 44;  6; 55; 20;
    3; 10; 43; 25; 39;
   41; 45; 15; 21;  8;
   18;  2; 61; 56; 14].

Definition offset (x y : nat) : Z :=
  nth (x mod 5 + 5 * (y mod 5))%nat rotation_offsets 0.

(** rho and pi in one pass: the lane written at (X, Y) is the lane read at
    (x, y) = (X + 3Y, X), rotated by its offset. *)
Definition rho_pi (st : state) : state :=
  lanes (fun X Y =>
    let x := ((X + 3 * Y) mod 5)%nat in
    rotl64 (lane st x X) (offset x X)).

Definition chi (st : state) : state :=
  lanes (fun x y =>
    Z.lxor (lane st x y)
      (Z.land (not64 (lane st (x + 1) y)) (lane st (x + 2) y))).

Definition iota (rc : Z) (st : state) : state :=
  match st with
  | [] => []
  | l :: rest => Z.lxor l rc :: rest
  end.

Definition round_constants : list Z :=
  [0x0000000000000001; 0x0000000000008082; 0x800000000000808A;
   0x8000000080008000; 0x000000000000808B; 0x0000000080000001;
   0x8000000080008081; 0x8000000000008009; 0x000000000000008A;
   0x0000000000000088; 0x0000000080008009; 0x000000008000000A;
   0x000000008000808B; 0x800000000000008B; 0x8000000000008089;
   0x8000000000008003; 0x8000000000008002; 0x8000000000000080;
   0x000000000000800A; 0x800000008000000A; 0x8000000080008081;
   0x8000000000008080; 0x0000000080000001; 0x8000000080008008].

Definition round (st : state) (rc : Z) : state :=
  iota rc (chi (rho_pi (theta st))).

Definition keccak_f (st : state) : state :=
  fold_left round round_constants st.

Definition rate : nat := 136.

(** Multi-rate padding of Keccak: 0x01, zeros, 0x80, up to a whole
    number of blocks (a single byte 0x81 when one byte is missing). *)
Definition pad (msg : list Z) : list Z :=
  let missing := (rate - (List.length msg mod rate))%nat in
  match missing with
  | 1%nat => (msg ++ [0x81])%list
  | _ => (msg ++ [0x01] ++ repeat 0 (missing - 2) ++ [0x80])%list
  end.

(** Little-endian lane of eight bytes. *)
Fixpoint lane_of_bytes (bs : list Z) : Z :=
  match bs with
  | [] => 0
  | b :: rest => Z.lor b (Z.shiftl (lane_of_bytes rest) 8)
  end.

Fixpoint lanes_of_bytes (n : nat) (bs : list Z) : list Z :=
  match n with
  | O => []
  | S n' => lane_of_bytes (firstn 8 bs) :: lanes_of_bytes n' (skipn 8 bs)
  end.

Fixpoint xor_into (st : state) (block : list Z) : state :=
  match st, block with
  | l :: st', b :: block' => Z.lxor l b :: xor_into st' block'
  | _, _ => st
  end.

Fixpoint absorb (blocks : nat) (st : state) (bs : list Z) : state :=
  match blocks with
  | O => st
  | S n =>
      absorb n
        (keccak_f (xor_into st (lanes_of_bytes 17 (firstn rate bs))))
        (skipn rate bs)
  end.

Definition byte_of_lane (l : Z) (i : nat) : Z :=
  Z.land (Z.shiftr l (8 * Z.of_nat i)) 255.

Definition bytes_of_lane (l : Z) : list Z :=
  map (byte_of_lane l) (seq 0 8).

Definition squeeze (st : state) : list Z :=
  flat_map bytes_of_lane (firstn 4 st).

Definition keccak_256 (msg : list Z) : list Z :=
  let padded := pad msg in
  squeeze (absorb (List.length padded / rate) (repeat 0 25%nat) padded).

End Keccak.

(* ================================================================== *)
(** * Hexadecimal strings and string encoding *)

Module Hex.

Definition digit (n : Z) : ascii :=
  if n <? 10 then ascii_of_N (Z.to_N (48 + n))
  else ascii_of_N (Z.to_N (87 + n)).

Definition of_byte (b : Z) : string :=
  String (digit (b / 16)) (String (digit (b mod 16)) EmptyString).

Fixpoint encode (bs : list Z) : string :=
  match bs with
  | [] => EmptyString
  | b :: rest => of_byte b ++ encode rest
  end.

(** A hexadecimal digit of either case, as [Buffer.from(s, 'hex')] reads
    them. *)
Definition digit_value (c : ascii) : option Z :=
  let n := Z.of_N (N_of_ascii c) in
  if (48 <=? n) && (n <=? 57) then Some (n - 48)
  else if (97 <=? n) && (n <=? 102) then Some (n - 87)
  else if (65 <=? n) && (n <=? 70) then Some (n - 55)
  else None.

(** Decoding stops at the first pair that is not two digits. *)
Fixpoint decode (s : string) : list Z :=
  match s with
  | String c1 (String c2 rest) =>
      match digit_value c1, digit_value c2 with
      | Some h, Some l => (16 * h + l) :: decode rest
      | _, _ => []
      end
  | _ => []
  end.

End Hex.

(** UTF-8 bytes of a string of code units below 256: one byte below 128,
    two bytes from 128 on. *)
Fixpoint utf8 (s : string) : list Z :=
  match s with
  | EmptyString => []
  | String c rest =>
      let n := Z.of_N (N_of_ascii c) in
      if n <? 128 then n :: utf8 rest
      else Z.lor 0xC0 (Z.shiftr n 6)
           :: Z.lor 0x80 (Z.land n 0x3F) :: utf8 rest
  end.

Definition sha3 (msg : list Z) : list Z := Keccak.keccak_256 msg.

(* ================================================================== *)
(** * The Namehash Engine (./cns/namehash) *)

(** A node hash is exchanged as a hexadecimal string (./types). *)
Abbreviation nodeHash := string (only parsing).

Record HashOptions := { prefix : bool }.

(** [domain.split('.')]: the labels of a domain, leftmost first.  The empty
    string has the single label [""]. *)
Fixpoint split (sep : ascii) (s : string) : list string :=
  match s with
  | EmptyString => [EmptyString]
  | String c rest =>
      if Ascii.eqb c sep then EmptyString :: split sep rest
      else match split sep rest with
           | [] => [String c EmptyString]
           | l :: ls => String c l :: ls
           end
  end.

(** Modelled from the spec: ./cns/namehash (the default export [hash] and
    [childhash]) is not among the sources.  Section 4.1: "split the domain
    into labels by [.]; starting from the fixed root hash (all-zero, fixed
    width), process labels from rightmost (suffix) to leftmost, at each step
    computing next = H(prev || H(label))"; [childhash] "exposes exactly one
    step of the above recursion".  Hashes are hexadecimal strings (section
    6).  The spec describes [options] by an example only; Cns.test.ts fixes
    it: with the default [{ prefix: true }] and the unprefixed all-zero
    parent, [childhash] yields the ["0x"]-prefixed value that [namehash]
    yields, and it accepts a ["0x"]-prefixed parent, so the flag cannot
    change the bytes hashed; it is the ["0x"] of the result. *)
Module Namehash.

Definition root_bytes : list Z := repeat 0 32%nat.

(** The all-zero root hash, as Cns.test.ts writes it. *)
Definition ZERO_HASH : nodeHash :=
  "0000000000000000000000000000000000000000000000000000000000000000".

(** One step of the recursion, on bytes: H(prev || H(label)). *)
Definition step (prev : list Z) (label : string) : list Z :=
  sha3 (prev ++ sha3 (utf8 label))%list.

(** [parent.replace(/^0x/, '')] *)
Definition strip0x (s : string) : string :=
  match s with
  | String "0" (String "x" rest) => rest
  | _ => s
  end.

Definition childhash (parent : nodeHash) (label : string)
    (options : HashOptions) : nodeHash :=
  (if prefix options then "0x" else "")
  ++ Hex.encode (step (Hex.decode (strip0x parent)) label).

Definition hash_bytes (domain : string) : list Z :=
  fold_right (fun label prev => step prev label) root_bytes
    (split "." domain).

Definition hash (domain : string) : nodeHash :=
  "0x" ++ Hex.encode (hash_bytes domain).

End Namehash.

(* ================================================================== *)
(** * Strings *)

(** Every code unit of a string passes a test. *)
Fixpoint forallb_string (f : ascii -> bool) (s : string) : bool :=
  match s with
  | EmptyString => true
  | String c rest => f c && forallb_string f rest
  end.

(** [s.indexOf(c)] for a needle of one code unit: the position of its first
    occurrence, -1 when there is none. *)
Fixpoint indexOf (c : ascii) (s : string) : Z :=
  match s with
  | EmptyString => -1
  | String a rest =>
      if Ascii.eqb a c then 0
      else let i := indexOf c rest in
           if i <? 0 then -1 else i + 1
  end.

(* ================================================================== *)
(** * Regular expressions, as far as [isSupportedDomain] uses them *)

Module Regex.

Inductive regex : Type :=
| Void
| Eps
| Dot
| Chr (c : ascii)
| Cat (r s : regex)
| Alt (r s : regex)
| Star (r : regex).

(** [.] matches any code unit but a line terminator; below 256 these are
    line feed and carriage return. *)
Definition line_terminator (c : ascii) : bool :=
  Ascii.eqb c "010" || Ascii.eqb c "013".

(** [r{1,}] *)
Definition plus (r : regex) : regex := Cat r (Star r).

(** A literal word. *)
Fixpoint lit (w : string) : regex :=
  match w with
  | EmptyString => Eps
  | String c rest => Cat (Chr c) (lit rest)
  end.

Fixpoint nullable (r : regex) : bool :=
  match r with
  | Void | Dot | Chr _ => false
  | Eps | Star _ => true
  | Cat r1 r2 => nullable r1 && nullable r2
  | Alt r1 r2 => nullable r1 || nullable r2
  end.

(** The words of [r] that start with [c], with [c] taken off. *)
Fixpoint deriv (c : ascii) (r : regex) : regex :=
  match r with
  | Void | Eps => Void
  | Dot => if line_terminator c then Void else Eps
  | Chr a => if Ascii.eqb c a then Eps else Void
  | Cat r1 r2 =>
      if nullable r1 then Alt (Cat (deriv c r1) r2) (deriv c r2)
      else Cat (deriv c r1) r2
  | Alt r1 r2 => Alt (deriv c r1) (deriv c r2)
  | Star r1 => Cat (deriv c r1) (Star r1)
  end.

(** [/^r$/.test(s)]: the whole of [s] is a word of [r]. *)
Fixpoint test (r : regex) (s : string) : bool :=
  match s with
  | EmptyString => nullable r
  | String c rest => test (deriv c r) rest
  end.

(** The words of a regular expression. *)
Inductive Matches : regex -> string -> Prop :=
| MEps : Matches Eps ""
| MDot c : line_terminator c = false -> Matches Dot (String c "")
| MChr c : Matches (Chr c) (String c "")
| MCat r1 r2 s1 s2 :
    Matches r1 s1 -> Matches r2 s2 -> Matches (Cat r1 r2) (s1 ++ s2)
| MAltL r1 r2 s : Matches r1 s -> Matches (Alt r1 r2) s
| MAltR r1 r2 s : Matches r2 s -> Matches (Alt r1 r2) s
| MStar0 r : Matches (Star r) ""
| MStarS r s1 s2 :
    Matches r s1 -> Matches (Star r) s2 -> Matches (Star r) (s1 ++ s2).

End Regex.

(* ================================================================== *)
(** * JavaScript values, errors and asynchronous calls *)

(** A string that may be [undefined] or [null]. *)
Definition value := option string.

(** [!v] for such a value: absent or the empty string. *)
Definition falsy (v : value) : bool :=
  match v with
  | None => true
  | Some s => String.eqb s ""
  end.

(** Modelled from the spec: ./resolutionError is not among the sources.
    Section 7 gives the kinds of the error taxonomy; section 4.2 gives a
    resolution error a kind and a context of named fields. *)
Inductive ResolutionErrorCode : Type :=
| UnregisteredDomain
| UnspecifiedResolver
| RecordNotFound
| UnspecifiedCurrency
| UnsupportedDomain
| MethodNotSupported
| ConfigurationError.

(** The context of an error, an object literal: its fields in the order
    written. *)
Definition ErrorContext := list (string * string).

(** What a [throw] carries: a [ResolutionError] with its kind and context,
    or a plain JavaScript [Error] with its message. *)
Inductive exn : Type :=
| ResolutionError (code : ResolutionErrorCode) (context : ErrorContext)
| Error (message : string).

(** The kind of a structured error; a plain [Error] has none. *)
Definition kind_of (e : exn) : option ResolutionErrorCode :=
  match e with
  | ResolutionError code _ => Some code
  | Error _ => None
  end.

Definition eqb_code (a b : ResolutionErrorCode) : bool :=
  match a, b with
  | UnregisteredDomain, UnregisteredDomain
  | UnspecifiedResolver, UnspecifiedResolver
  | RecordNotFound, RecordNotFound
  | UnspecifiedCurrency, UnspecifiedCurrency
  | UnsupportedDomain, UnsupportedDomain
  | MethodNotSupported, MethodNotSupported
  | ConfigurationError, ConfigurationError => true
  | _, _ => false
  end.

(** The two contract interfaces [cns.ts] imports. *)
Inductive Interface : Type := cnsInterface | resolverInterface.

(** Modelled from the spec: [buildContract] of the base class and the class
    [Contract] of ./utils/contract are not among the sources.  A contract is
    an on-chain registry or resolver reached through the transport (sections
    3 and 6): here, the interface it is built from and the address it is
    bound to, which a caller may leave undefined. *)
Record Contract : Type := buildContract
  { abi : Interface; contractAddress : value }.

(** One call to the contract-call transport (section 6). *)
Record Request : Type := mkRequest
  { contract : option Contract; methodname : string; params : list string }.

(** The backend: what the transport answers to a request, a value or a
    failure.  It is read-only and holds no state (sections 3 and 5). *)
Definition Transport := Request -> exn + value.

(** An asynchronous, fallible computation: run against a backend it yields
    the requests it has sent, in order, and its outcome. *)
Definition Promise (A : Type) : Type :=
  Transport -> list Request * (exn + A).

Definition ret {A : Type} (a : A) : Promise A :=
  fun _ => ([], inr a).

Definition throw {A : Type} (e : exn) : Promise A :=
  fun _ => ([], inl e).

Definition bind {A B : Type} (m : Promise A) (k : A -> Promise B)
  : Promise B :=
  fun t =>
    match m t with
    | (sent, inl e) => (sent, inl e)
    | (sent, inr a) =>
        let (sent', r) := k a t in ((sent ++ sent')%list, r)
    end.

(** [try { return await promise } catch (error) { handler }] *)
Definition catch {A : Type} (m : Promise A) (handler : exn -> Promise A)
  : Promise A :=
  fun t =>
    match m t with
    | (sent, inl e) =>
        let (sent', r) := handler e t in ((sent ++ sent')%list, r)
    | (sent, inr a) => (sent, inr a)
    end.

(** A synchronous call that may throw, inside an [async] function. *)
Definition lift {A : Type} (r : exn + A) : Promise A :=
  fun _ => ([], r).

Declare Scope promise_scope.
Delimit Scope promise_scope with promise.
Notation "x <- m ;; k" := (bind m (fun x => k))
  (at level 61, m at next level, right associativity) : promise_scope.

(** The requests a computation sends, and its outcome. *)
Definition sent {A : Type} (m : Promise A) (t : Transport) : list Request :=
  fst (m t).

Definition outcome {A : Type} (m : Promise A) (t : Transport) : exn + A :=
  snd (m t).

(* ================================================================== *)
(** * The base class (./namingService) *)

(** Modelled from the spec: [callMethod] is a method of the base class
    [EthereumNamingService], which is not among the sources.  It is the
    boundary call of section 6: the request goes to the transport, and what
    the transport answers, a value or a failure, is what the call yields. *)
Definition callMethod (contract : option Contract) (methodname : string)
    (params : list string) : Promise value :=
  fun t => let request := mkRequest contract methodname params in
           ([request], t request).

(** Modelled from the spec: [isResolutionError] is a method of the base
    class, which is not among the sources.  It is the test "fails with
    exactly kind K" of section 4.2: a resolution error of that kind. *)
Definition isResolutionError (error : exn) (code : ResolutionErrorCode)
  : bool :=
  match error with
  | ResolutionError c _ => eqb_code c code
  | Error _ => false
  end.

(** Modelled from the spec: [ignoreResolutionError] is a method of the base
    class, which is not among the sources.  Section 4.2: "run an operation,
    and if it fails with exactly kind K, substitute a null/absent result
    instead of propagating.  Any other failure kind still propagates
    unchanged through this combinator." *)
Definition ignoreResolutionError (code : ResolutionErrorCode)
    (promise : Promise value) : Promise value :=
  catch promise
    (fun error => if isResolutionError error code then ret None
                  else throw error).

(* ================================================================== *)
(** * The class [Cns] (src/cns.ts) *)

Module Cns.

(** The source after [normalizeSource]: each field may be missing. *)
Record SourceDefinition : Type := mkSource
  { source_network : value; source_url : value; source_registry : value }.

(** The fields of an instance. *)
Record Instance : Type := mkCns
  { network : value;
    url : value;
    registryAddress : value;
    registryContract : option Contract }.

Definition RegistryMap : list (string * string) :=
  [("mainnet", "0xD1E5b0FF1287aA9f9A268759062E4Ab08b9Dacbe")].

(** The names every object literal inherits from [Object.prototype]. *)
Definition inherited_names : list string :=
  ["constructor"; "toString"; "toLocaleString"; "valueOf";
   "hasOwnProperty"; "isPrototypeOf"; "propertyIsEnumerable"; "__proto__";
   "__defineGetter__"; "__defineSetter__"; "__lookupGetter__";
   "__lookupSetter__"].

Definition inherited (key : value) : bool :=
  match key with
  | Some k => existsb (String.eqb k) inherited_names
  | None => false
  end.

(** [map[key]] on an object literal used as a table of strings: the string
    held under the key, [undefined] for a key the table does not hold or an
    undefined one.  Under a key of [inherited_names] JavaScript finds the
    property of [Object.prototype], a function or an object and not a
    string: [lookup] says nothing of the code at those keys, and the
    properties that go through it are stated for the other keys. *)
Fixpoint lookup (map : list (string * string)) (key : value) : value :=
  match map, key with
  | (k, v) :: rest, Some key' =>
      if String.eqb k key' then Some v else lookup rest key
  | _, _ => None
  end.

(** [/^.{1,}\.(crypto)$/] *)
Definition supported_pattern : Regex.regex :=
  Regex.Cat (Regex.plus Regex.Dot)
    (Regex.Cat (Regex.Chr ".") (Regex.lit "crypto")).

(** cns.ts, lines 68-73. *)
Definition isSupportedDomain (domain : string) : bool :=
  String.eqb domain "crypto"
  || ((indexOf "." domain >? 0) && Regex.test supported_pattern domain).

(** Modelled from the spec: [ensureSupportedDomain] is a method of the base
    class, which is not among the sources.  By its name and the error
    taxonomy of section 7 it lets a supported domain pass and fails with
    [UnsupportedDomain], carrying the domain, on any other. *)
Definition ensureSupportedDomain (domain : string) : exn + unit :=
  if isSupportedDomain domain then inr tt
  else inl (ResolutionError UnsupportedDomain [("domain", domain)]).

(** cns.ts, lines 133-136. *)
Definition namehash (domain : string) : exn + nodeHash :=
  match ensureSupportedDomain domain with
  | inl e => inl e
  | inr _ => inr (Namehash.hash domain)
  end.

(** cns.ts, lines 143-149: an omitted [options] is [{ prefix: true }]. *)
Definition childhash (parent : nodeHash) (label : string)
    (options : option HashOptions) : nodeHash :=
  let options :=
    match options with
    | Some o => o
    | None => {| prefix := true |}
    end in
  Namehash.childhash parent label options.

(** cns.ts, lines 213-220. *)
Definition getRecord (contract : Contract) (methodname : string)
    (params : list string) : Promise value :=
  callMethod (Some contract) methodname params.

(** cns.ts, lines 189-193. *)
Definition getTtl (contract : Contract) (methodname : string)
    (params : list string) : Promise value :=
  callMethod (Some contract) methodname params.

Section Methods.

(** What [cns.ts] imports from modules that are not among the sources, or
    takes from the language: [normalizeSource] of the base class with the
    type of its argument, the type [ResolutionResponse], [isNullAddress] of
    ./types, and [String.prototype.toUpperCase]. *)
Variable NamingServiceSource : Type.
Variable normalizeSource : NamingServiceSource -> SourceDefinition.
Variable ResolutionResponse : Type.
Variable isNullAddress : value -> bool.
Variable toUpperCase : string -> string.

(** cns.ts, lines 41-61. *)
Definition constructor (source : NamingServiceSource) : exn + Instance :=
  let source := normalizeSource source in
  let network := source_network source in
  let url := source_url source in
  if falsy network then
    inl (Error "Unspecified network in Resolution CNS configuration")
  else if falsy url then
    inl (Error "Unspecified url in Resolution CNS configuration")
  else
    let registryAddress :=
      if negb (falsy (source_registry source)) then source_registry source
      else lookup RegistryMap network in
    inr {| network := network;
           url := url;
           registryAddress := registryAddress;
           registryContract :=
             if negb (falsy registryAddress)
             then Some (buildContract cnsInterface registryAddress)
             else None |}.

Variable this : Instance.

Local Open Scope promise_scope.

(** cns.ts, lines 81-83. *)
Definition resolve (domain : string) : Promise ResolutionResponse :=
  throw (Error "This method is unsupported for CNS").

(** cns.ts, lines 152-157. *)
Definition getResolver (tokenId : nodeHash) : Promise value :=
  ignoreResolutionError RecordNotFound
    (callMethod (registryContract this) "resolverOf" [tokenId]).

(** cns.ts, lines 114-126. *)
Definition fetchAddress (resolver : value) (tokenId : nodeHash)
    (coinName : string) : Promise value :=
  let resolverContract := buildContract resolverInterface resolver in
  let addrKey := "crypto." ++ toUpperCase coinName ++ ".address" in
  addr <- getRecord resolverContract "get" [addrKey; tokenId] ;;
  ret addr.

(** cns.ts, lines 94-107.  The resolver is asked for under [domain], and
    [namehash(domain)] is evaluated after that call. *)
Definition address (domain currencyTicker : string) : Promise value :=
  resolver <- getResolver domain ;;
  tokenId <- lift (namehash domain) ;;
  addr <- fetchAddress resolver tokenId currencyTicker ;;
  if falsy addr then
    throw (ResolutionError UnspecifiedCurrency
             [("domain", domain); ("currencyTicker", currencyTicker)])
  else ret addr.

(** cns.ts, lines 160-163. *)
Definition owner (domain : string) : Promise value :=
  tokenId <- lift (namehash domain) ;;
  callMethod (registryContract this) "ownerOf" [tokenId].

(** cns.ts, lines 196-211. *)
Definition record (domain key : string) : Promise value :=
  tokenId <- lift (namehash domain) ;;
  resolver <- getResolver tokenId ;;
  let resolverContract := buildContract resolverInterface resolver in
  record <- getRecord resolverContract "get" [key; tokenId] ;;
  if falsy record || isNullAddress record then
    throw (ResolutionError RecordNotFound
             [("recordName", key); ("domain", domain)])
  else ret record.

(** cns.ts, lines 169-187. *)
Definition ipfsHash (domain : string) : Promise value :=
  record domain "ipfs.html.value".

Definition email (domain : string) : Promise value :=
  record domain "whois.email.value".

Definition httpUrl (domain : string) : Promise value :=
  record domain "ipfs.redirect_domain.value".

End Methods.

End Cns.

(* ================================================================== *)
(** * Specification-side definitions *)

(** The instance of [isNullAddress] used in the examples: an absent value
    and the all-zero Ethereum address are null. *)
Definition isNullAddress_zero (v : value) : bool :=
  match v with
  | None => true
  | Some s => String.eqb s "0x0000000000000000000000000000000000000000"
  end.

(** The instance of [toUpperCase] used in the examples: the letters a-z
    are mapped to A-Z, any other code unit is kept. *)
Definition upper_ascii (c : ascii) : ascii :=
  let n := N_of_ascii c in
  if ((97 <=? n) && (n <=? 122))%N then ascii_of_N (n - 32) else c.

Fixpoint toUpperCase_ascii (s : string) : string :=
  match s with
  | EmptyString => EmptyString
  | String c rest => String (upper_ascii c) (toUpperCase_ascii rest)
  end.

(** A backend like the mocks of Cns.test.ts: it answers every [resolverOf],
    [ownerOf] and [get] with a fixed value. *)
Definition mock_backend (resolver owner record : value) : Transport :=
  fun request =>
    if String.eqb (methodname request) "resolverOf" then inr resolver
    else if String.eqb (methodname request) "ownerOf" then inr owner
    else if String.eqb (methodname request) "get" then inr record
    else inl (Error "unknown method").

(** A registry that knows one token: it answers [resolverOf] with a
    resolver for the hash of ["brad.crypto"] only, and the contract at that
    resolver answers every [get] with an address. *)
Definition keyed_backend : Transport :=
  fun request =>
    if String.eqb (methodname request) "resolverOf" then
      match params request with
      | [id] =>
          if String.eqb id (Namehash.hash "brad.crypto")
          then inr (Some "0xBD5F5ec7ed5f19b53726344540296C02584A5237")
          else inr None
      | _ => inr None
      end
    else if String.eqb (methodname request) "get" then
      match contract request with
      | Some {| contractAddress := Some _ |} =>
          inr (Some "1EVt92qQnaLDcmVFtHivRJaunG2mf2C3mB")
      | _ => inr None
      end
    else inr None.

(** A backend that is down: every request fails with the same error. *)
Definition failing_backend (e : exn) : Transport := fun _ => inl e.

(** The request [getResolver] sends for a token, and the request
    [getRecord] sends for a key of a token to the contract at a resolver. *)
Definition resolverOf_request (this : Cns.Instance) (id : string)
  : Request :=
  mkRequest (Cns.registryContract this) "resolverOf" [id].

Definition get_request (resolver : value) (key id : string) : Request :=
  mkRequest (Some (buildContract resolverInterface resolver)) "get"
    [key; id].

(** The instance [new Cns()] builds for mainnet. *)
Definition mainnet : Cns.Instance :=
  Cns.mkCns (Some "mainnet") (Some "https://mainnet.infura.io")
    (Some "0xD1E5b0FF1287aA9f9A268759062E4Ab08b9Dacbe")
    (Some (buildContract cnsInterface
             (Some "0xD1E5b0FF1287aA9f9A268759062E4Ab08b9Dacbe"))).

(** A byte, as an integer. *)
Definition is_byte (b : Z) : Prop := 0 <= b < 256.

(** A single label: a string without a dot. *)
Definition is_label (s : string) : bool :=
  forallb_string (fun c => negb (Ascii.eqb c ".")) s.

(** No line terminator in a string. *)
Definition no_line_terminator (s : string) : bool :=
  forallb_string (fun c => negb (Regex.line_terminator c)) s.

(** The specification's words for a supported domain: the suffix itself, or
    a string that ends in [".crypto"] with at least one non-empty label
    before it. *)
Definition spec_supported (domain : string) : Prop :=
  domain = "crypto" \/
  exists p, domain = p ++ ".crypto" /\
            exists label, In label (split "." p) /\ label <> "".

(* ================================================================== *)
(** * Facts about strings *)

Lemma append_eq_nil (s t : string) : s ++ t = "" -> s = "" /\ t = "".
Proof. destruct s; simpl; [auto | discriminate]. Qed.

Lemma append_eq_cons (s t u : string) (c : ascii) :
  s ++ t = String c u ->
  (s = "" /\ t = String c u) \/ (exists s', s = String c s' /\ u = s' ++ t).
Proof.
  destruct s as [|a s]; simpl; intros H.
  - left; auto.
  - right. injection H as -> <-. eauto.
Qed.

(* ================================================================== *)
(** * The regular expression test decides membership *)

Module RegexFacts.

Import Regex.

#[local] Hint Constructors Matches : core.

Lemma inv_cat (r1 r2 : regex) (s : string) :
  Matches (Cat r1 r2) s ->
  exists s1 s2, s = s1 ++ s2 /\ Matches r1 s1 /\ Matches r2 s2.
Proof. inversion 1; subst; eauto. Qed.

Lemma inv_alt (r1 r2 : regex) (s : string) :
  Matches (Alt r1 r2) s -> Matches r1 s \/ Matches r2 s.
Proof. inversion 1; subst; auto. Qed.

Lemma inv_dot (s : string) :
  Matches Dot s -> exists c, s = String c "" /\ line_terminator c = false.
Proof. inversion 1; subst; eauto. Qed.

Lemma inv_chr (a : ascii) (s : string) :
  Matches (Chr a) s -> s = String a "".
Proof. inversion 1; subst; eauto. Qed.

Lemma cat_cons (r1 r2 : regex) (c : ascii) (s1 s2 : string) :
  Matches r1 (String c s1) -> Matches r2 s2 ->
  Matches (Cat r1 r2) (String c (s1 ++ s2)).
Proof.
  intros H1 H2. change (String c (s1 ++ s2)) with (String c s1 ++ s2). auto.
Qed.

Lemma nullable_spec (r : regex) : nullable r = true <-> Matches r "".
Proof.
  induction r as [| | |a|r1 IH1 r2 IH2|r1 IH1 r2 IH2|r1 IH1]; simpl.
  - split; [discriminate | inversion 1].
  - split; auto.
  - split; [discriminate | inversion 1].
  - split; [discriminate | inversion 1].
  - rewrite andb_true_iff, IH1, IH2. split.
    + intros [H1 H2]. change "" with ("" ++ ""). auto.
    + intros H. apply inv_cat in H as (s1 & s2 & E & H1 & H2).
      symmetry in E. apply append_eq_nil in E as [-> ->]. auto.
  - rewrite orb_true_iff, IH1, IH2. split.
    + intros [H|H]; auto.
    + apply inv_alt.
  - split; auto.
Qed.

(** A non-empty word of [Star r] starts with a non-empty word of [r]. *)
Lemma star_cons (r : regex) (c : ascii) (s : string) :
  Matches (Star r) (String c s) ->
  exists s1 s2,
    s = s1 ++ s2 /\ Matches r (String c s1) /\ Matches (Star r) s2.
Proof.
  intros H.
  remember (Star r) as r' eqn:Er. remember (String c s) as w eqn:Ew.
  revert s Ew.
  induction H as [| | | | | | |r0 s1 s2 H1 _ H2 IH2]; try discriminate.
  injection Er as ->. intros s Ew.
  apply append_eq_cons in Ew as [[-> ->]|[s' [-> ->]]].
  - apply IH2; reflexivity.
  - eauto.
Qed.

Lemma deriv_spec (r : regex) (c : ascii) (s : string) :
  Matches (deriv c r) s <-> Matches r (String c s).
Proof.
  revert s.
  induction r as [| | |a|r1 IH1 r2 IH2|r1 IH1 r2 IH2|r1 IH1]; intros s; simpl.
  - split; inversion 1.
  - split; inversion 1.
  - destruct (line_terminator c) eqn:Ec; split; intros H.
    + inversion H.
    + apply inv_dot in H as (a & [= -> ->] & Ha). congruence.
    + inversion H; subst. auto.
    + apply inv_dot in H as (a & [= -> ->] & Ha). auto.
  - destruct (Ascii.eqb_spec c a) as [->|Hne]; split; intros H.
    + inversion H; subst. auto.
    + apply inv_chr in H as [= ->]. auto.
    + inversion H.
    + apply inv_chr in H as [= -> ->]. congruence.
  - assert (Hcat : Matches (Cat (deriv c r1) r2) s ->
                   Matches (Cat r1 r2) (String c s)).
    { intros H. apply inv_cat in H as (s1 & s2 & -> & H1 & H2).
      apply IH1 in H1. now apply cat_cons. }
    assert (Hinv : Matches (Cat r1 r2) (String c s) ->
                   Matches (Cat (deriv c r1) r2) s \/
                   (nullable r1 = true /\ Matches (deriv c r2) s)).
    { intros H. apply inv_cat in H as (s1 & s2 & E & H1 & H2).
      symmetry in E.
      apply append_eq_cons in E as [[-> ->]|[s' [-> ->]]].
      - right. split; [now apply nullable_spec | now apply IH2].
      - left. apply IH1 in H1. auto. }
    destruct (nullable r1) eqn:En; split.
    + intros H. apply inv_alt in H as [H|H]; [auto|].
      apply IH2 in H. apply nullable_spec in En.
      change (String c s) with ("" ++ String c s). auto.
    + intros H. destruct (Hinv H) as [H'|[_ H']]; auto.
    + auto.
    + intros H. destruct (Hinv H) as [H'|[E _]]; [auto | discriminate].
  - split; intros H; apply inv_alt in H as [H|H].
    + apply IH1 in H; auto.
    + apply IH2 in H; auto.
    + apply IH1 in H; auto.
    + apply IH2 in H; auto.
  - split.
    + intros H. apply inv_cat in H as (s1 & s2 & -> & H1 & H2).
      apply IH1 in H1. change (String c (s1 ++ s2)) with (String c s1 ++ s2).
      auto.
    + intros H. apply star_cons in H as (s1 & s2 & -> & H1 & H2).
      apply IH1 in H1. auto.
Qed.

Theorem test_spec (r : regex) (s : string) :
  test r s = true <-> Matches r s.
Proof.
  revert r. induction s as [|c s IH]; intros r; simpl.
  - apply nullable_spec.
  - rewrite IH. apply deriv_spec.
Qed.

Lemma matches_lit (w s : string) : Matches (lit w) s <-> s = w.
Proof.
  revert s. induction w as [|c w IH]; intros s; simpl.
  - split; [inversion 1; reflexivity | intros ->; auto].
  - split.
    + intros H. apply inv_cat in H as (s1 & s2 & -> & H1 & H2).
      apply inv_chr in H1 as ->. apply IH in H2 as ->. reflexivity.
    + intros ->. change (String c w) with (String c "" ++ w).
      constructor; [auto | now apply IH].
Qed.

Lemma matches_star_dot (s : string) :
  Matches (Star Dot) s <->
  no_line_terminator s = true.
Proof.
  split.
  - unfold no_line_terminator.
    induction s as [|c s IH]; intros H; simpl; [reflexivity|].
    apply star_cons in H as (s1 & s2 & -> & H1 & H2).
    apply inv_dot in H1 as (a & [= -> ->] & Ha).
    rewrite Ha. simpl. auto.
  - unfold no_line_terminator.
    induction s as [|c s IH]; simpl; intros H; [auto|].
    apply andb_true_iff in H as [Hc Hs].
    change (String c s) with (String c "" ++ s).
    apply MStarS; [|auto]. constructor.
    now destruct (line_terminator c).
Qed.

End RegexFacts.

(* ================================================================== *)
(** * Supported domains *)

Lemma indexOf_found (c : ascii) (s u : string) :
  0 <= indexOf c (s ++ String c u).
Proof.
  induction s as [|a s IH]; simpl.
  - rewrite Ascii.eqb_refl. lia.
  - destruct (Ascii.eqb a c); [lia|].
    destruct (indexOf c (s ++ String c u) <? 0) eqn:E.
    + apply Z.ltb_lt in E. lia.
    + lia.
Qed.

Lemma indexOf_positive (c : ascii) (s : string) :
  (indexOf c s >? 0) = true <->
  exists a rest, s = String a rest /\ a <> c /\ 0 <= indexOf c rest.
Proof.
  destruct s as [|a s]; simpl.
  - split; [discriminate | intros (a & rest & E & _); discriminate].
  - destruct (Ascii.eqb_spec a c) as [->|Hne].
    + split; [discriminate|]. intros (a & rest & [= -> ->] & Hne & _).
      congruence.
    + destruct (indexOf c s <? 0) eqn:E.
      * apply Z.ltb_lt in E. split; [discriminate|].
        intros (a' & rest & [= -> ->] & _ & H). lia.
      * apply Z.ltb_ge in E. split.
        -- intros _. eauto.
        -- intros _. apply Z.gtb_lt. lia.
Qed.

(** The words of [/^.{1,}\.(crypto)$/]. *)
Lemma matches_supported_pattern (domain : string) :
  Regex.Matches Cns.supported_pattern domain <->
  exists p, domain = p ++ ".crypto" /\ p <> "" /\
            no_line_terminator p = true.
Proof.
  change Cns.supported_pattern
    with (Regex.Cat (Regex.plus Regex.Dot) (Regex.lit ".crypto")).
  split.
  - intros H. apply RegexFacts.inv_cat in H as (p & w & -> & Hp & Hw).
    apply RegexFacts.matches_lit in Hw as ->.
    apply RegexFacts.inv_cat in Hp as (s1 & s2 & -> & H1 & H2).
    apply RegexFacts.inv_dot in H1 as (c & -> & Hc).
    apply RegexFacts.matches_star_dot in H2.
    exists (String c s2). repeat split.
    + discriminate.
    + unfold no_line_terminator in *. simpl. now rewrite Hc.
  - intros (p & -> & Hne & Hp).
    destruct p as [|c p]; [congruence|].
    unfold no_line_terminator in Hp. simpl in Hp.
    apply andb_true_iff in Hp as [Hc Hp].
    constructor.
    + change (String c p) with (String c "" ++ p). constructor.
      * constructor. now destruct (Regex.line_terminator c).
      * now apply RegexFacts.matches_star_dot.
    + now apply RegexFacts.matches_lit.
Qed.

(** C6, as the code has it: [isSupportedDomain(domain)] is true if and only
    if [domain] is ["crypto"], or is a non-empty part followed by
    [".crypto"], where the part does not begin with a dot and holds no line
    terminator. *)
Theorem isSupportedDomain_iff (domain : string) :
  Cns.isSupportedDomain domain = true <->
  (domain = "crypto" \/
   exists p, domain = p ++ ".crypto" /\ p <> "" /\
             String.get 0 p <> Some "."%char /\
             no_line_terminator p = true).
Proof.
  unfold Cns.isSupportedDomain.
  rewrite orb_true_iff, andb_true_iff, String.eqb_eq,
    RegexFacts.test_spec, matches_supported_pattern, indexOf_positive.
  split.
  - intros [->|[(a & rest & E & Ha & _) (p & -> & Hne & Hp)]]; [now left|].
    right. exists p. repeat split; auto.
    destruct p as [|c p]; [congruence|].
    simpl in E. injection E as -> _. simpl. congruence.
  - intros [->|(p & -> & Hne & Hdot & Hp)]; [now left|].
    right. split; [|eauto].
    destruct p as [|c p]; [congruence|].
    exists c, (p ++ ".crypto"). repeat split.
    + simpl in Hdot. congruence.
    + apply indexOf_found.
Qed.

(** C6, the claim as the specification words it fails: a domain whose part
    before [".crypto"] begins with a dot, or holds a line feed, has a
    non-empty label before the suffix and is not supported. *)
Lemma isSupportedDomain_not_spec_supported :
  (Cns.isSupportedDomain ".a.crypto" = false /\
   spec_supported ".a.crypto") /\
  (Cns.isSupportedDomain (String "a" (String "010" "b.crypto")) = false /\
   spec_supported (String "a" (String "010" "b.crypto"))).
Proof.
  split; split; try reflexivity.
  - right. exists ".a". split; [reflexivity|].
    exists "a". split; [simpl; auto | discriminate].
  - right. exists (String "a" (String "010" "b")). split; [reflexivity|].
    exists (String "a" (String "010" "b")).
    split; [simpl; auto | discriminate].
Qed.

Example isSupportedDomain_examples :
  Cns.isSupportedDomain "crypto" = true /\
  Cns.isSupportedDomain "brad.crypto" = true /\
  Cns.isSupportedDomain "a..crypto" = true /\
  Cns.isSupportedDomain ".crypto" = false /\
  Cns.isSupportedDomain "" = false /\
  Cns.isSupportedDomain "brad.zil" = false /\
  Cns.isSupportedDomain "bradcrypto" = false.
Proof. repeat split. Qed.

(* ================================================================== *)
(** * Hashing *)

Lemma digit_value_digit (n : Z) :
  0 <= n < 16 -> Hex.digit_value (Hex.digit n) = Some n.
Proof.
  intros [Hlow Hhigh].
  destruct n as [|p|p]; [reflexivity| |lia].
  do 4 (destruct p as [p|p|]; try reflexivity); lia.
Qed.

Lemma decode_of_byte (b : Z) (rest : string) :
  is_byte b -> Hex.decode (Hex.of_byte b ++ rest) = b :: Hex.decode rest.
Proof.
  intros Hb. unfold is_byte in Hb. unfold Hex.of_byte.
  change (Hex.decode (String (Hex.digit (b / 16))
                        (String (Hex.digit (b mod 16)) rest))
          = b :: Hex.decode rest).
  cbn [Hex.decode].
  rewrite !digit_value_digit.
  - f_equal. pose proof (Z.div_mod b 16). lia.
  - apply Z.mod_pos_bound. lia.
  - split; [apply Z.div_pos; lia | apply Z.div_lt_upper_bound; lia].
Qed.

(** Reading back the hexadecimal form of bytes gives the bytes. *)
Lemma decode_encode (bs : list Z) :
  Forall is_byte bs -> Hex.decode (Hex.encode bs) = bs.
Proof.
  induction 1 as [|b bs Hb _ IH]; [reflexivity|].
  cbn [Hex.encode]. rewrite decode_of_byte by assumption. now rewrite IH.
Qed.

Lemma byte_of_lane_range (l : Z) (i : nat) : is_byte (Keccak.byte_of_lane l i).
Proof.
  unfold is_byte, Keccak.byte_of_lane.
  change 255 with (Z.ones 8). rewrite Z.land_ones by lia.
  change (2 ^ 8) with 256. apply Z.mod_pos_bound. lia.
Qed.

(** A digest is made of bytes. *)
Lemma sha3_bytes (msg : list Z) : Forall is_byte (sha3 msg).
Proof.
  unfold sha3, Keccak.keccak_256, Keccak.squeeze.
  apply Forall_flat_map, Forall_forall. intros l _.
  unfold Keccak.bytes_of_lane. apply Forall_map, Forall_forall.
  intros i _. apply byte_of_lane_range.
Qed.

Lemma hash_bytes_bytes (domain : string) :
  Forall is_byte (Namehash.hash_bytes domain).
Proof.
  unfold Namehash.hash_bytes.
  destruct (split "." domain) as [|label labels]; cbn [fold_right].
  - apply Forall_forall. intros b Hb. apply repeat_spec in Hb as ->.
    unfold is_byte. lia.
  - apply sha3_bytes.
Qed.

(** The labels of [label + "." + parent], for a label without a dot. *)
Lemma split_label (label parent : string) :
  is_label label = true ->
  split "." (label ++ "." ++ parent) = label :: split "." parent.
Proof.
  unfold is_label.
  induction label as [|c label IH]; intros H; [reflexivity|].
  simpl in H. apply andb_true_iff in H as [Hc H].
  cbn [append split]. destruct (Ascii.eqb c "."); [discriminate|].
  change (label ++ String "." parent) with (label ++ "." ++ parent).
  now rewrite (IH H).
Qed.

(** [namehash] goes one step of the recursion further for one more label. *)
Lemma hash_bytes_label (label parent : string) :
  is_label label = true ->
  Namehash.hash_bytes (label ++ "." ++ parent) =
  Namehash.step (Namehash.hash_bytes parent) label.
Proof.
  intros H. unfold Namehash.hash_bytes. now rewrite split_label.
Qed.

Lemma childhash_of_hash (label parent : string) (options : HashOptions) :
  is_label label = true ->
  Namehash.childhash (Namehash.hash parent) label options =
  (if prefix options then "0x" else "")
  ++ Hex.encode (Namehash.hash_bytes (label ++ "." ++ parent)).
Proof.
  intros H. unfold Namehash.childhash, Namehash.hash.
  change (Namehash.strip0x ("0x" ++ ?s)) with s.
  rewrite decode_encode by apply hash_bytes_bytes.
  now rewrite hash_bytes_label.
Qed.

Example sha3_known_answers :
  Hex.encode (sha3 []) =
    "c5d2460186f7233c927e7db2dcc703c0e500b653ca82273b7bfad8045d85a470" /\
  Hex.encode (sha3 (utf8 "abc")) =
    "4e03657aea45a94fc7d47ba826c8d667c0d1e6e33a64a036ec44f58fa12d6c45".
Proof. split; vm_compute; reflexivity. Qed.

Example ZERO_HASH_is_root :
  Hex.decode Namehash.ZERO_HASH = Namehash.root_bytes.
Proof. reflexivity. Qed.

(** C3: [namehash] yields the regression values of Cns.test.ts for
    ["crypto"], ["-hello.crypto"], ["hello-.crypto"] and ["-hello-.crypto"];
    a hyphen of a label is hashed as the byte it is (45), and a hyphenated
    label goes through the same step as any other. *)
Theorem namehash_fixtures :
  Cns.namehash "crypto" =
    inr "0x0f4a10a4f46c288cea365fcf45cccf0e9d901b945b9829ccdb54c10dc3cb7a6f"
  /\ Cns.namehash "-hello.crypto" =
    inr "0xc4ad028bcae9b201104e15f872d3e85b182939b06829f75a128275177f2ff9b2"
  /\ Cns.namehash "hello-.crypto" =
    inr "0x82eaa6ef14e438940bfd7747e0e4c4fec42af20cee28ddd0a7d79f52b1c59b72"
  /\ Cns.namehash "-hello-.crypto" =
    inr "0x90cc1963ff09ce95ee2dbb3830df4f2115da9756e087a50283b3e65f6ffe2a4e"
  /\ utf8 "-hello-" = [45; 104; 101; 108; 108; 111; 45]
  /\ Namehash.hash_bytes "-hello-.crypto" =
     sha3 (Namehash.hash_bytes "crypto" ++ sha3 (utf8 "-hello-")).
Proof. repeat apply conj; vm_compute; reflexivity. Qed.

(** C4: for a label (a string without a dot) and a supported parent such
    that [label + "." + parent] is supported,
    [childhash(namehash(parent), label)] is [namehash(label + "." + parent)];
    and [childhash(ZERO_HASH, "crypto")] is [namehash("crypto")]. *)
Theorem childhash_namehash (label parent : string) :
  is_label label = true ->
  Cns.isSupportedDomain parent = true ->
  Cns.isSupportedDomain (label ++ "." ++ parent) = true ->
  (exists h,
      Cns.namehash parent = inr h /\
      Cns.namehash (label ++ "." ++ parent) = inr (Cns.childhash h label None))
  /\ Cns.namehash "crypto" =
     inr (Cns.childhash Namehash.ZERO_HASH "crypto" None).
Proof.
  intros Hlabel Hparent Hdomain. split.
  - exists (Namehash.hash parent).
    unfold Cns.namehash, Cns.ensureSupportedDomain.
    rewrite Hparent, Hdomain. split; [reflexivity|].
    unfold Cns.childhash. now rewrite childhash_of_hash.
  - vm_compute. reflexivity.
Qed.

(** C4 at the domain of Cns.test.ts. *)
Lemma childhash_namehash_witness :
  exists h,
    Cns.namehash "world.crypto" = inr h /\
    Cns.namehash "hello.world.crypto" = inr (Cns.childhash h "hello" None).
Proof.
  exact (proj1 (childhash_namehash "hello" "world.crypto"
                  eq_refl eq_refl eq_refl)).
Defined.



(** On a supported domain [namehash] returns the hash. *)
Lemma namehash_supported (domain : string) :
  Cns.isSupportedDomain domain = true ->
  Cns.namehash domain = inr (Namehash.hash domain).
Proof.
  intros H. unfold Cns.namehash, Cns.ensureSupportedDomain. now rewrite H.
Qed.

(** C10: [childhash(parent, label)] without options is
    [childhash(parent, label, { prefix: true })]. *)
Theorem childhash_default_options (parent : nodeHash) (label : string) :
  Cns.childhash parent label None =
  Cns.childhash parent label (Some {| prefix := true |}).
Proof. reflexivity. Qed.

(* ================================================================== *)
(** * The registry/resolver protocol *)

Ltac run_promise :=
  unfold sent, outcome, Cns.record, Cns.address, Cns.fetchAddress, Cns.owner,
    Cns.resolve, Cns.getResolver, Cns.getRecord, ignoreResolutionError,
    callMethod, bind, catch, lift, ret, throw;
  cbn [fst snd app].

(** What [getResolver] yields, by the answer of the registry. *)
Lemma getResolver_run (this : Cns.Instance) (tokenId : nodeHash)
    (t : Transport) :
  let request :=
    mkRequest (Cns.registryContract this) "resolverOf" [tokenId] in
  Cns.getResolver this tokenId t =
  ([request],
   match t request with
   | inl (ResolutionError RecordNotFound _) => inr None
   | inl e => inl e
   | inr resolver => inr resolver
   end).
Proof.
  intros request. run_promise. fold request.
  destruct (t request) as [[code context|message]|resolver];
    [destruct code|..]; reflexivity.
Qed.


(** C5, as the code has it: [resolve] sends nothing and fails, on every
    domain and backend, with the plain error "This method is unsupported
    for CNS", which has no kind of the taxonomy. *)
Theorem resolve_throws_plain_error
    (ResolutionResponse : Type) (domain : string) (t : Transport) :
  sent (Cns.resolve ResolutionResponse domain) t = []
  /\ outcome (Cns.resolve ResolutionResponse domain) t =
     inl (Error "This method is unsupported for CNS")
  /\ kind_of (Error "This method is unsupported for CNS") = None.
Proof. repeat apply conj; reflexivity. Qed.

(** C5, the claim as stated fails: the error of [resolve("brad.crypto")] is
    not a resolution error of kind [MethodNotSupported]. *)
Lemma resolve_not_MethodNotSupported :
  outcome (Cns.resolve unit "brad.crypto") (mock_backend None None None) =
    inl (Error "This method is unsupported for CNS")
  /\ (forall context,
        Error "This method is unsupported for CNS" <>
        ResolutionError MethodNotSupported context).
Proof. split; [reflexivity | discriminate]. Qed.

(** The constructor fails with a plain error when the normalised source
    lacks a network or a url. *)
Lemma constructor_missing
    (NamingServiceSource : Type)
    (normalizeSource : NamingServiceSource -> Cns.SourceDefinition)
    (source : NamingServiceSource) :
  falsy (Cns.source_network (normalizeSource source)) = true \/
  falsy (Cns.source_url (normalizeSource source)) = true ->
  exists message,
    Cns.constructor NamingServiceSource normalizeSource source =
    inl (Error message).
Proof.
  unfold Cns.constructor. cbv zeta. intros [H|H].
  - rewrite H. eexists. reflexivity.
  - destruct (falsy (Cns.source_network (normalizeSource source)));
      [|rewrite H]; eexists; reflexivity.
Qed.

(** C8, the code at a source without a network and at one without a url:
    the constructor throws a plain [Error], not a resolution error of kind
    [ConfigurationError] as its documentation says. *)
Theorem constructor_throws_plain_error :
  Cns.constructor Cns.SourceDefinition (fun source => source)
    (Cns.mkSource None (Some "https://mainnet.infura.io") None) =
    inl (Error "Unspecified network in Resolution CNS configuration")
  /\ Cns.constructor Cns.SourceDefinition (fun source => source)
       (Cns.mkSource (Some "mainnet") None None) =
     inl (Error "Unspecified url in Resolution CNS configuration")
  /\ Cns.constructor Cns.SourceDefinition (fun source => source)
       (Cns.mkSource (Some "mainnet") (Some "https://mainnet.infura.io") None)
     = inr mainnet.
Proof. repeat apply conj; reflexivity. Qed.

(** What [record] does on a supported domain, by the answers of the
    backend. *)
Lemma record_run
    (isNullAddress : value -> bool) (this : Cns.Instance)
    (domain key : string) (t : Transport) :
  Cns.isSupportedDomain domain = true ->
  let tokenId := Namehash.hash domain in
  let resolverOf :=
    mkRequest (Cns.registryContract this) "resolverOf" [tokenId] in
  let get resolver :=
    mkRequest (Some (buildContract resolverInterface resolver)) "get"
      [key; tokenId] in
  let fetch resolver :=
    ([resolverOf; get resolver],
     match t (get resolver) with
     | inl e => inl e
     | inr v =>
         if falsy v || isNullAddress v then
           inl (ResolutionError RecordNotFound
                  [("recordName", key); ("domain", domain)])
         else inr v
     end) in
  Cns.record isNullAddress this domain key t =
  match t resolverOf with
  | inl (ResolutionError RecordNotFound _) => fetch None
  | inl e => ([resolverOf], inl e)
  | inr resolver => fetch resolver
  end.
Proof.
  intros H. cbv zeta.
  unfold Cns.record, bind, lift. rewrite (namehash_supported domain H).
  rewrite getResolver_run. cbv zeta.
  unfold Cns.getRecord, callMethod, throw, ret.
  destruct (t (mkRequest (Cns.registryContract this) "resolverOf"
                 [Namehash.hash domain]))
    as [[code context|message]|resolver];
    [destruct code|..]; cbn [app]; try reflexivity;
    (match goal with |- context [t ?rq] => destruct (t rq) as [e|v] end;
     [reflexivity|]; destruct (falsy v || isNullAddress v); reflexivity).
Qed.

(** C1, as the code has it: on a supported domain [record(domain, key)]
    asks the registry for [resolverOf(namehash(domain))], where a failure of
    kind [RecordNotFound] counts as an absent resolver and any other failure
    ends the call; it then asks the contract at the resolver, found or not,
    for [get(key, namehash(domain))], and never asks for the owner.  A
    failure of that call is handed on; an empty, absent or null-address
    value fails with [RecordNotFound] carrying [recordName = key] and
    [domain]; any other value is returned as it is. *)
Theorem record_protocol
    (isNullAddress : value -> bool) (this : Cns.Instance)
    (domain key : string) (t : Transport) :
  Cns.isSupportedDomain domain = true ->
  let tokenId := Namehash.hash domain in
  let resolverOf :=
    mkRequest (Cns.registryContract this) "resolverOf" [tokenId] in
  let get resolver :=
    mkRequest (Some (buildContract resolverInterface resolver)) "get"
      [key; tokenId] in
  let fetch resolver :=
    ([resolverOf; get resolver],
     match t (get resolver) with
     | inl e => inl e
     | inr v =>
         if falsy v || isNullAddress v then
           inl (ResolutionError RecordNotFound
                  [("recordName", key); ("domain", domain)])
         else inr v
     end) in
  (Cns.record isNullAddress this domain key t =
   match t resolverOf with
   | inl (ResolutionError RecordNotFound _) => fetch None
   | inl e => ([resolverOf], inl e)
   | inr resolver => fetch resolver
   end)
  /\ Forall (fun request => methodname request <> "ownerOf")
       (sent (Cns.record isNullAddress this domain key) t).
Proof.
  intros H. cbv zeta. unfold sent.
  rewrite (record_run isNullAddress this domain key t H). cbv zeta.
  split; [reflexivity|].
  destruct (t (mkRequest (Cns.registryContract this) "resolverOf"
                 [Namehash.hash domain]))
    as [[code context|message]|resolver];
    [destruct code|..]; cbn [fst];
    repeat constructor; cbn [methodname]; discriminate.
Qed.

(** C1 at the mocks of "checks the IPFS hash record" of Cns.test.ts. *)
Lemma record_protocol_witness :
  Cns.record isNullAddress_zero mainnet "reseller-test-braden-6.crypto"
    "ipfs.html2"
    (mock_backend (Some "0xBD5F5ec7ed5f19b53726344540296C02584A5237") None
       (Some "QmVaAtQbi3EtsfpKoLzALm6vXphdi2KjMgxEDKeGg6wHuK")) =
  ([mkRequest (Cns.registryContract mainnet) "resolverOf"
      [Namehash.hash "reseller-test-braden-6.crypto"];
    mkRequest
      (Some (buildContract resolverInterface
               (Some "0xBD5F5ec7ed5f19b53726344540296C02584A5237")))
      "get" ["ipfs.html2"; Namehash.hash "reseller-test-braden-6.crypto"]],
   inr (Some "QmVaAtQbi3EtsfpKoLzALm6vXphdi2KjMgxEDKeGg6wHuK")).
Proof.
  exact (proj1
           (record_protocol isNullAddress_zero mainnet
              "reseller-test-braden-6.crypto" "ipfs.html2"
              (mock_backend
                 (Some "0xBD5F5ec7ed5f19b53726344540296C02584A5237") None
                 (Some "QmVaAtQbi3EtsfpKoLzALm6vXphdi2KjMgxEDKeGg6wHuK"))
              eq_refl)).
Defined.

(** C1, the claim as stated fails: with no resolver and no owner (the
    backend answers nothing), and with no resolver and an owner, [record]
    fails with [RecordNotFound], not with [UnregisteredDomain] or
    [UnspecifiedResolver]. *)
Lemma record_without_resolver_is_RecordNotFound :
  (outcome (Cns.getResolver mainnet (Namehash.hash "empty.crypto"))
     (mock_backend None None None) = inr None
   /\ outcome (Cns.owner mainnet "empty.crypto")
        (mock_backend None None None) = inr None
   /\ outcome (Cns.record isNullAddress_zero mainnet "empty.crypto"
                 "No.such.record")
        (mock_backend None None None) =
      inl (ResolutionError RecordNotFound
             [("recordName", "No.such.record"); ("domain", "empty.crypto")]))
  /\
  (outcome (Cns.getResolver mainnet (Namehash.hash "pandorapay.crypto"))
     (mock_backend None (Some "someowneraddress") None) = inr None
   /\ outcome (Cns.owner mainnet "pandorapay.crypto")
        (mock_backend None (Some "someowneraddress") None) =
      inr (Some "someowneraddress")
   /\ outcome (Cns.record isNullAddress_zero mainnet "pandorapay.crypto"
                 "No.such.record")
        (mock_backend None (Some "someowneraddress") None) =
      inl (ResolutionError RecordNotFound
             [("recordName", "No.such.record");
              ("domain", "pandorapay.crypto")])).
Proof. repeat apply conj; vm_compute; reflexivity. Qed.

(** The ticker is not checked: with an empty ticker [address] looks up the
    key ["crypto..address"] and returns what the backend holds there, as
    [record] does. *)
Example address_empty_ticker_returns :
  toUpperCase_ascii "" = ""
  /\ outcome
       (Cns.address toUpperCase_ascii mainnet "reseller-test-braden-6.crypto"
          "")
       (mock_backend (Some "0xBD5F5ec7ed5f19b53726344540296C02584A5237") None
          (Some "zil1yu5u4hegy9v3xgluweg4en54zm8f8auwxu0xxj")) =
     inr (Some "zil1yu5u4hegy9v3xgluweg4en54zm8f8auwxu0xxj")
  /\ outcome
       (Cns.record isNullAddress_zero mainnet "reseller-test-braden-6.crypto"
          "crypto..address")
       (mock_backend (Some "0xBD5F5ec7ed5f19b53726344540296C02584A5237") None
          (Some "zil1yu5u4hegy9v3xgluweg4en54zm8f8auwxu0xxj")) =
     inr (Some "zil1yu5u4hegy9v3xgluweg4en54zm8f8auwxu0xxj").
Proof. repeat apply conj; vm_compute; reflexivity. Qed.

(** C2, the code on a registry that knows the resolver of a domain under
    its hash (the input: domain ["brad.crypto"], ticker ["BTC"]): [record]
    asks [resolverOf] with [namehash(domain)], finds the resolver and
    returns the address held under ["crypto.BTC.address"]; [address] asks
    [resolverOf] with the domain string itself, finds no resolver and fails
    with [UnspecifiedCurrency].  The two do not return the same value. *)
Theorem address_asks_under_domain :
  hd_error
    (sent (Cns.record isNullAddress_zero mainnet "brad.crypto"
             "crypto.BTC.address") keyed_backend) =
    Some (mkRequest (Cns.registryContract mainnet) "resolverOf"
            [Namehash.hash "brad.crypto"])
  /\ outcome (Cns.record isNullAddress_zero mainnet "brad.crypto"
                "crypto.BTC.address") keyed_backend =
     inr (Some "1EVt92qQnaLDcmVFtHivRJaunG2mf2C3mB")
  /\ hd_error
       (sent (Cns.address toUpperCase_ascii mainnet "brad.crypto" "BTC")
          keyed_backend) =
     Some (mkRequest (Cns.registryContract mainnet) "resolverOf"
             ["brad.crypto"])
  /\ outcome (Cns.address toUpperCase_ascii mainnet "brad.crypto" "BTC")
       keyed_backend =
     inl (ResolutionError UnspecifiedCurrency
            [("domain", "brad.crypto"); ("currencyTicker", "BTC")]).
Proof. repeat apply conj; vm_compute; reflexivity. Qed.

(** A null address held under the key is returned by [address], where
    [record] refuses it. *)
Example address_returns_null_address :
  outcome (Cns.address toUpperCase_ascii mainnet "brad.crypto" "ETH")
    (mock_backend (Some "0xBD5F5ec7ed5f19b53726344540296C02584A5237") None
       (Some "0x0000000000000000000000000000000000000000")) =
    inr (Some "0x0000000000000000000000000000000000000000")
  /\ outcome (Cns.record isNullAddress_zero mainnet "brad.crypto"
                "crypto.ETH.address")
       (mock_backend (Some "0xBD5F5ec7ed5f19b53726344540296C02584A5237") None
          (Some "0x0000000000000000000000000000000000000000")) =
     inl (ResolutionError RecordNotFound
            [("recordName", "crypto.ETH.address"); ("domain", "brad.crypto")]).
Proof. repeat apply conj; vm_compute; reflexivity. Qed.

(** The fixed-key lookups are [record] at their keys. *)
Lemma fixed_key_lookups
    (isNullAddress : value -> bool) (this : Cns.Instance) (domain : string) :
  Cns.ipfsHash isNullAddress this domain =
    Cns.record isNullAddress this domain "ipfs.html.value"
  /\ Cns.email isNullAddress this domain =
     Cns.record isNullAddress this domain "whois.email.value"
  /\ Cns.httpUrl isNullAddress this domain =
     Cns.record isNullAddress this domain "ipfs.redirect_domain.value".
Proof. repeat apply conj; reflexivity. Qed.

(* ================================================================== *)
(** * Further properties of the lookups *)

(** What [record] does on any domain, by the outcome of [namehash] and the
    answers of the backend. *)
Lemma record_run_any
    (isNullAddress : value -> bool) (this : Cns.Instance)
    (domain key : string) (t : Transport) :
  Cns.record isNullAddress this domain key t =
  match Cns.namehash domain with
  | inl e => ([], inl e)
  | inr id =>
      let fetch resolver :=
        ([resolverOf_request this id; get_request resolver key id],
         match t (get_request resolver key id) with
         | inl e => inl e
         | inr v =>
             if falsy v || isNullAddress v then
               inl (ResolutionError RecordNotFound
                      [("recordName", key); ("domain", domain)])
             else inr v
         end) in
      match t (resolverOf_request this id) with
      | inl (ResolutionError RecordNotFound _) => fetch None
      | inl e => ([resolverOf_request this id], inl e)
      | inr resolver => fetch resolver
      end
  end.
Proof.
  unfold Cns.record, bind, lift.
  destruct (Cns.namehash domain) as [e|id]; [reflexivity|].
  rewrite getResolver_run. cbv zeta.
  unfold Cns.getRecord, callMethod, throw, ret, resolverOf_request,
    get_request.
  destruct (t (mkRequest (Cns.registryContract this) "resolverOf" [id]))
    as [[code context|message]|resolver];
    [destruct code|..]; cbn [app]; try reflexivity;
    (match goal with |- context [t ?rq] => destruct (t rq) as [e|v] end;
     [reflexivity|]; destruct (falsy v || isNullAddress v); reflexivity).
Qed.

(** What [address] does on any domain.  The resolver is asked for under
    the domain string before [namehash] has looked at the domain. *)
Lemma address_run_any
    (toUpperCase : string -> string) (this : Cns.Instance)
    (domain ticker : string) (t : Transport) :
  Cns.address toUpperCase this domain ticker t =
  let key := "crypto." ++ toUpperCase ticker ++ ".address" in
  let fetch resolver :=
    match Cns.namehash domain with
    | inl e => ([resolverOf_request this domain], inl e)
    | inr id =>
        ([resolverOf_request this domain; get_request resolver key id],
         match t (get_request resolver key id) with
         | inl e => inl e
         | inr v =>
             if falsy v then
               inl (ResolutionError UnspecifiedCurrency
                      [("domain", domain); ("currencyTicker", ticker)])
             else inr v
         end)
    end in
  match t (resolverOf_request this domain) with
  | inl (ResolutionError RecordNotFound _) => fetch None
  | inl e => ([resolverOf_request this domain], inl e)
  | inr resolver => fetch resolver
  end.
Proof.
  cbv zeta. unfold Cns.address, Cns.fetchAddress, bind, lift.
  rewrite getResolver_run. cbv zeta.
  unfold Cns.getRecord, callMethod, throw, ret, resolverOf_request,
    get_request.
  destruct (t (mkRequest (Cns.registryContract this) "resolverOf" [domain]))
    as [[code context|message]|resolver];
    [destruct code|..]; cbn [app]; try reflexivity;
    (destruct (Cns.namehash domain) as [e|id]; [reflexivity|];
     match goal with |- context [t ?rq] => destruct (t rq) as [e|v] end;
     [reflexivity|]; destruct (falsy v); reflexivity).
Qed.

(** X1: [record], [owner], [ipfsHash], [email] and [httpUrl] look at the
    domain first: when [namehash(domain)] throws, each of them fails with
    that error and nothing has been sent to the backend. *)
Theorem lookups_validate_before_any_call
    (isNullAddress : value -> bool) (this : Cns.Instance)
    (domain key : string) (e : exn) (t : Transport) :
  Cns.namehash domain = inl e ->
  Cns.record isNullAddress this domain key t = ([], inl e)
  /\ Cns.owner this domain t = ([], inl e)
  /\ Cns.ipfsHash isNullAddress this domain t = ([], inl e)
  /\ Cns.email isNullAddress this domain t = ([], inl e)
  /\ Cns.httpUrl isNullAddress this domain t = ([], inl e).
Proof.
  intros H. unfold Cns.ipfsHash, Cns.email, Cns.httpUrl.
  rewrite !record_run_any, H. repeat apply conj; try reflexivity.
  unfold Cns.owner, bind, lift. now rewrite H.
Qed.

Lemma lookups_validate_before_any_call_witness :
  Cns.record isNullAddress_zero mainnet "brad.zil" "ipfs.html.value"
    (mock_backend (Some "0xBD5F5ec7ed5f19b53726344540296C02584A5237")
       (Some "someowneraddress") (Some "QmVaAt")) =
  ([], inl (ResolutionError UnsupportedDomain [("domain", "brad.zil")])).
Proof.
  exact (proj1
           (lookups_validate_before_any_call isNullAddress_zero mainnet
              "brad.zil" "ipfs.html.value"
              (ResolutionError UnsupportedDomain [("domain", "brad.zil")])
              (mock_backend
                 (Some "0xBD5F5ec7ed5f19b53726344540296C02584A5237")
                 (Some "someowneraddress") (Some "QmVaAt"))
              eq_refl)).
Defined.

(** X2: [address] asks the registry before it looks at the domain: when
    [namehash(domain)] throws, the [resolverOf] request, with the domain
    string as its argument, has already been sent; the call then fails with
    the error of [namehash], unless the registry call itself failed with an
    error of another kind than [RecordNotFound], which is what is thrown. *)
Theorem address_calls_registry_before_validating
    (toUpperCase : string -> string) (this : Cns.Instance)
    (domain ticker : string) (e : exn) (t : Transport) :
  Cns.namehash domain = inl e ->
  sent (Cns.address toUpperCase this domain ticker) t =
    [resolverOf_request this domain]
  /\ outcome (Cns.address toUpperCase this domain ticker) t =
     match t (resolverOf_request this domain) with
     | inl (ResolutionError RecordNotFound _) => inl e
     | inl e' => inl e'
     | inr _ => inl e
     end.
Proof.
  intros H. unfold sent, outcome. rewrite address_run_any, H. cbv zeta.
  destruct (t (resolverOf_request this domain))
    as [[code context|message]|resolver];
    [destruct code|..]; split; reflexivity.
Qed.

Lemma address_calls_registry_before_validating_witness :
  sent (Cns.address toUpperCase_ascii mainnet "brad.zil" "ZIL")
    (mock_backend (Some "0xBD5F5ec7ed5f19b53726344540296C02584A5237") None
       (Some "zil1yu5u4hegy9v3xgluweg4en54zm8f8auwxu0xxj")) =
  [resolverOf_request mainnet "brad.zil"].
Proof.
  exact (proj1
           (address_calls_registry_before_validating toUpperCase_ascii
              mainnet "brad.zil" "ZIL"
              (ResolutionError UnsupportedDomain [("domain", "brad.zil")])
              (mock_backend
                 (Some "0xBD5F5ec7ed5f19b53726344540296C02584A5237") None
                 (Some "zil1yu5u4hegy9v3xgluweg4en54zm8f8auwxu0xxj"))
              eq_refl)).
Defined.

(** X3: a value that [record] returns is never absent, empty or a null
    address.  Exactly two requests were sent: [resolverOf] for the hash of
    the domain, and [get] for the key and the hash to the contract at the
    resolver the registry answered (at no resolver when the registry
    answered a [RecordNotFound] failure); the value is the answer to that
    [get] request. *)
Theorem record_returns_the_fetched_value
    (isNullAddress : value -> bool) (this : Cns.Instance)
    (domain key : string) (v : value) (t : Transport) :
  outcome (Cns.record isNullAddress this domain key) t = inr v ->
  falsy v = false /\ isNullAddress v = false
  /\ exists id resolver,
       Cns.namehash domain = inr id
       /\ (t (resolverOf_request this id) = inr resolver
           \/ (resolver = None
               /\ exists context,
                    t (resolverOf_request this id) =
                    inl (ResolutionError RecordNotFound context)))
       /\ sent (Cns.record isNullAddress this domain key) t =
          [resolverOf_request this id; get_request resolver key id]
       /\ t (get_request resolver key id) = inr v.
Proof.
  unfold outcome, sent. rewrite record_run_any. intros H.
  destruct (Cns.namehash domain) as [e|id]; [discriminate|]. cbv zeta in *.
  destruct (t (resolverOf_request this id))
    as [[code context|message]|resolver] eqn:Hresolver;
    [destruct code|..]; cbn [fst snd] in *; try discriminate;
    (destruct (t (get_request _ key id)) as [e|v'] eqn:Hget;
     [discriminate|];
     destruct (falsy v') eqn:Hf; [discriminate|];
     destruct (isNullAddress v') eqn:Hn; [discriminate|];
     cbn [orb] in H; injection H as <-;
     split; [assumption|]; split; [assumption|];
     eexists; eexists; repeat apply conj;
     [reflexivity | | reflexivity | eassumption]; eauto).
Qed.

Lemma record_returns_the_fetched_value_witness :
  outcome
    (Cns.record isNullAddress_zero mainnet "reseller-test-braden-6.crypto"
       "ipfs.html2")
    (mock_backend (Some "0xBD5F5ec7ed5f19b53726344540296C02584A5237") None
       (Some "QmVaAtQbi3EtsfpKoLzALm6vXphdi2KjMgxEDKeGg6wHuK")) =
    inr (Some "QmVaAtQbi3EtsfpKoLzALm6vXphdi2KjMgxEDKeGg6wHuK")
  /\ isNullAddress_zero
       (Some "QmVaAtQbi3EtsfpKoLzALm6vXphdi2KjMgxEDKeGg6wHuK") = false.
Proof.
  assert (H : outcome
                (Cns.record isNullAddress_zero mainnet
                   "reseller-test-braden-6.crypto" "ipfs.html2")
                (mock_backend
                   (Some "0xBD5F5ec7ed5f19b53726344540296C02584A5237") None
                   (Some "QmVaAtQbi3EtsfpKoLzALm6vXphdi2KjMgxEDKeGg6wHuK")) =
              inr (Some "QmVaAtQbi3EtsfpKoLzALm6vXphdi2KjMgxEDKeGg6wHuK"))
    by (vm_compute; reflexivity).
  split; [exact H|].
  exact (proj1 (proj2 (record_returns_the_fetched_value _ _ _ _ _ _ H))).
Defined.

(** X4: a value that [address] returns is never absent or empty.  Exactly
    two requests were sent: [resolverOf] for the domain string, and [get]
    for the key ["crypto." + uppercase(ticker) + ".address"] and
    [namehash(domain)] to the contract at the resolver the registry
    answered (at no resolver when the registry answered a [RecordNotFound]
    failure); the value is the answer to that [get] request. *)
Theorem address_returns_the_fetched_value
    (toUpperCase : string -> string) (this : Cns.Instance)
    (domain ticker : string) (v : value) (t : Transport) :
  outcome (Cns.address toUpperCase this domain ticker) t = inr v ->
  falsy v = false
  /\ exists id resolver,
       Cns.namehash domain = inr id
       /\ (t (resolverOf_request this domain) = inr resolver
           \/ (resolver = None
               /\ exists context,
                    t (resolverOf_request this domain) =
                    inl (ResolutionError RecordNotFound context)))
       /\ sent (Cns.address toUpperCase this domain ticker) t =
          [resolverOf_request this domain;
           get_request resolver
             ("crypto." ++ toUpperCase ticker ++ ".address") id]
       /\ t (get_request resolver
               ("crypto." ++ toUpperCase ticker ++ ".address") id) = inr v.
Proof.
  unfold outcome, sent. rewrite address_run_any. cbv zeta. intros H.
  destruct (t (resolverOf_request this domain))
    as [[code context|message]|resolver] eqn:Hresolver;
    [destruct code|..]; cbn [fst snd] in *; try discriminate;
    (destruct (Cns.namehash domain) as [e|id]; [discriminate|];
     cbn [fst snd] in *;
     destruct (t (get_request _ _ id)) as [e|v'] eqn:Hget; [discriminate|];
     destruct (falsy v') eqn:Hf; [discriminate|];
     injection H as <-; split; [assumption|];
     eexists; eexists; repeat apply conj;
     [reflexivity | | reflexivity | eassumption]; eauto).
Qed.

Lemma address_returns_the_fetched_value_witness :
  outcome
    (Cns.address toUpperCase_ascii mainnet "reseller-test-braden-6.crypto"
       "BTC")
    (mock_backend (Some "0xBD5F5ec7ed5f19b53726344540296C02584A5237") None
       (Some "1EVt92qQnaLDcmVFtHivRJaunG2mf2C3mB")) =
    inr (Some "1EVt92qQnaLDcmVFtHivRJaunG2mf2C3mB")
  /\ falsy (Some "1EVt92qQnaLDcmVFtHivRJaunG2mf2C3mB") = false.
Proof.
  assert (H : outcome
                (Cns.address toUpperCase_ascii mainnet
                   "reseller-test-braden-6.crypto" "BTC")
                (mock_backend
                   (Some "0xBD5F5ec7ed5f19b53726344540296C02584A5237") None
                   (Some "1EVt92qQnaLDcmVFtHivRJaunG2mf2C3mB")) =
              inr (Some "1EVt92qQnaLDcmVFtHivRJaunG2mf2C3mB"))
    by (vm_compute; reflexivity).
  split; [exact H|].
  exact (proj1 (address_returns_the_fetched_value _ _ _ _ _ _ H)).
Defined.

(** X5: an error of [record] is the [RecordNotFound] it makes itself,
    carrying [recordName] and [domain], or the error [namehash] threw, or
    the failure the backend answered to one of the requests sent; [record]
    makes no other error. *)
Theorem record_failure_provenance
    (isNullAddress : value -> bool) (this : Cns.Instance)
    (domain key : string) (e : exn) (t : Transport) :
  outcome (Cns.record isNullAddress this domain key) t = inl e ->
  e = ResolutionError RecordNotFound
        [("recordName", key); ("domain", domain)]
  \/ Cns.namehash domain = inl e
  \/ exists request,
       In request (sent (Cns.record isNullAddress this domain key) t)
       /\ t request = inl e.
Proof.
  unfold outcome, sent. rewrite record_run_any. intros H.
  destruct (Cns.namehash domain) as [e0|id];
    [cbn [snd] in H; injection H as ->; auto|].
  cbv zeta in *.
  destruct (t (resolverOf_request this id))
    as [[code context|message]|resolver] eqn:Hresolver;
    [destruct code|..]; cbn [fst snd] in *;
    try (injection H as <-; right; right;
         exists (resolverOf_request this id); split;
         [now left | assumption]);
    (destruct (t (get_request _ key id)) as [e'|v] eqn:Hget;
     [injection H as <-; right; right;
      eexists; split; [right; left; reflexivity | eassumption]|];
     destruct (falsy v || isNullAddress v); [|discriminate];
     injection H as <-; now left).
Qed.

Lemma record_failure_provenance_witness :
  outcome
    (Cns.record isNullAddress_zero mainnet "brad.crypto" "ipfs.html.value")
    (failing_backend (Error "Invalid JSON RPC response")) =
    inl (Error "Invalid JSON RPC response")
  /\ (Error "Invalid JSON RPC response" =
        ResolutionError RecordNotFound
          [("recordName", "ipfs.html.value"); ("domain", "brad.crypto")]
      \/ Cns.namehash "brad.crypto" = inl (Error "Invalid JSON RPC response")
      \/ exists request,
           In request
             (sent (Cns.record isNullAddress_zero mainnet "brad.crypto"
                      "ipfs.html.value")
                (failing_backend (Error "Invalid JSON RPC response")))
           /\ failing_backend (Error "Invalid JSON RPC response") request =
              inl (Error "Invalid JSON RPC response")).
Proof.
  assert (H : outcome
                (Cns.record isNullAddress_zero mainnet "brad.crypto"
                   "ipfs.html.value")
                (failing_backend (Error "Invalid JSON RPC response")) =
              inl (Error "Invalid JSON RPC response"))
    by (vm_compute; reflexivity).
  split; [exact H|].
  exact (record_failure_provenance _ _ _ _ _ _ H).
Defined.

(** X6: an error of [address] is the [UnspecifiedCurrency] it makes itself,
    carrying [domain] and [currencyTicker], or the error [namehash] threw,
    or the failure the backend answered to one of the requests sent; in
    particular [address] makes no [RecordNotFound] of its own. *)
Theorem address_failure_provenance
    (toUpperCase : string -> string) (this : Cns.Instance)
    (domain ticker : string) (e : exn) (t : Transport) :
  outcome (Cns.address toUpperCase this domain ticker) t = inl e ->
  e = ResolutionError UnspecifiedCurrency
        [("domain", domain); ("currencyTicker", ticker)]
  \/ Cns.namehash domain = inl e
  \/ exists request,
       In request (sent (Cns.address toUpperCase this domain ticker) t)
       /\ t request = inl e.
Proof.
  unfold outcome, sent. rewrite address_run_any. cbv zeta. intros H.
  destruct (t (resolverOf_request this domain))
    as [[code context|message]|resolver] eqn:Hresolver;
    [destruct code|..]; cbn [fst snd] in *;
    try (injection H as <-; right; right;
         exists (resolverOf_request this domain); split;
         [now left | assumption]);
    (destruct (Cns.namehash domain) as [e0|id];
     [cbn [snd] in H; injection H as ->; auto|];
     cbn [fst snd] in *;
     destruct (t (get_request _ _ id)) as [e'|v] eqn:Hget;
     [injection H as <-; right; right;
      eexists; split; [right; left; reflexivity | eassumption]|];
     destruct (falsy v); [|discriminate];
     injection H as <-; now left).
Qed.

Lemma address_failure_provenance_witness :
  outcome
    (Cns.address toUpperCase_ascii mainnet "brad.crypto" "BTC")
    (mock_backend (Some "0xBD5F5ec7ed5f19b53726344540296C02584A5237") None
       None) =
    inl (ResolutionError UnspecifiedCurrency
           [("domain", "brad.crypto"); ("currencyTicker", "BTC")])
  /\ (ResolutionError UnspecifiedCurrency
        [("domain", "brad.crypto"); ("currencyTicker", "BTC")] =
      ResolutionError UnspecifiedCurrency
        [("domain", "brad.crypto"); ("currencyTicker", "BTC")]
      \/ Cns.namehash "brad.crypto" =
         inl (ResolutionError UnspecifiedCurrency
                [("domain", "brad.crypto"); ("currencyTicker", "BTC")])
      \/ exists request,
           In request
             (sent (Cns.address toUpperCase_ascii mainnet "brad.crypto"
                      "BTC")
                (mock_backend
                   (Some "0xBD5F5ec7ed5f19b53726344540296C02584A5237") None
                   None))
           /\ mock_backend
                (Some "0xBD5F5ec7ed5f19b53726344540296C02584A5237") None None
                request =
              inl (ResolutionError UnspecifiedCurrency
                     [("domain", "brad.crypto"); ("currencyTicker", "BTC")])).
Proof.
  assert (H : outcome
                (Cns.address toUpperCase_ascii mainnet "brad.crypto" "BTC")
                (mock_backend
                   (Some "0xBD5F5ec7ed5f19b53726344540296C02584A5237") None
                   None) =
              inl (ResolutionError UnspecifiedCurrency
                     [("domain", "brad.crypto"); ("currencyTicker", "BTC")]))
    by (vm_compute; reflexivity).
  split; [exact H|].
  exact (address_failure_provenance _ _ _ _ _ _ H).
Defined.

(** X7: [getResolver] never fails with [RecordNotFound]: an error it throws
    is the failure the registry answered to [resolverOf], of another kind
    or a plain error. *)
Theorem getResolver_failure_is_not_RecordNotFound
    (this : Cns.Instance) (id : string) (e : exn) (t : Transport) :
  outcome (Cns.getResolver this id) t = inl e ->
  isResolutionError e RecordNotFound = false
  /\ t (resolverOf_request this id) = inl e.
Proof.
  unfold outcome. rewrite getResolver_run. cbv zeta.
  fold (resolverOf_request this id). cbn [snd].
  destruct (t (resolverOf_request this id))
    as [[code context|message]|resolver];
    [destruct code|..]; intros H; try discriminate;
    injection H as <-; split; reflexivity.
Qed.

Lemma getResolver_failure_is_not_RecordNotFound_witness :
  outcome (Cns.getResolver mainnet (Namehash.hash "brad.crypto"))
    (failing_backend (ResolutionError UnregisteredDomain [])) =
    inl (ResolutionError UnregisteredDomain [])
  /\ isResolutionError (ResolutionError UnregisteredDomain [])
       RecordNotFound = false.
Proof.
  assert (H : outcome (Cns.getResolver mainnet (Namehash.hash "brad.crypto"))
                (failing_backend (ResolutionError UnregisteredDomain [])) =
              inl (ResolutionError UnregisteredDomain []))
    by reflexivity.
  split; [exact H|].
  exact (proj1 (getResolver_failure_is_not_RecordNotFound _ _ _ _ H)).
Defined.

(** X8: whatever the domain, the key or ticker and the backend, [record]
    and [address] send at most two requests, and only [resolverOf] and
    [get] requests: neither asks for the owner. *)
Theorem lookups_send_at_most_two_reads
    (isNullAddress : value -> bool) (toUpperCase : string -> string)
    (this : Cns.Instance) (domain key ticker : string) (t : Transport) :
  (List.length (sent (Cns.record isNullAddress this domain key) t) <= 2)%nat
  /\ Forall (fun request => methodname request = "resolverOf"
                            \/ methodname request = "get")
       (sent (Cns.record isNullAddress this domain key) t)
  /\ (List.length (sent (Cns.address toUpperCase this domain ticker) t)
      <= 2)%nat
  /\ Forall (fun request => methodname request = "resolverOf"
                            \/ methodname request = "get")
       (sent (Cns.address toUpperCase this domain ticker) t).
Proof.
  unfold sent. rewrite record_run_any, address_run_any. cbv zeta.
  repeat apply conj;
    repeat match goal with
           | |- context [match ?x with _ => _ end] => destruct x
           end;
    cbn [fst List.length];
    repeat (apply Forall_cons || apply Forall_nil);
    cbn [methodname resolverOf_request get_request]; auto.
Qed.

(* ================================================================== *)
(** * Further properties of the constructor *)

(** The registry table knows mainnet only. *)
Lemma lookup_RegistryMap (network : value) :
  Cns.lookup Cns.RegistryMap network =
  match network with
  | Some name =>
      if String.eqb "mainnet" name
      then Some "0xD1E5b0FF1287aA9f9A268759062E4Ab08b9Dacbe"
      else None
  | None => None
  end.
Proof. destruct network as [name|]; reflexivity. Qed.

(** X9: the constructor fails exactly when the normalised source lacks a
    network or a url (absent or empty).  The network is looked at first:
    without a network the error is "Unspecified network ...", whatever the
    url; with a network and without a url it is "Unspecified url ...";
    with both an instance is built. *)
Theorem constructor_outcomes
    (NamingServiceSource : Type)
    (normalizeSource : NamingServiceSource -> Cns.SourceDefinition)
    (source : NamingServiceSource) :
  (Cns.constructor NamingServiceSource normalizeSource source =
     inl (Error "Unspecified network in Resolution CNS configuration")
   <-> falsy (Cns.source_network (normalizeSource source)) = true)
  /\ (Cns.constructor NamingServiceSource normalizeSource source =
        inl (Error "Unspecified url in Resolution CNS configuration")
      <-> falsy (Cns.source_network (normalizeSource source)) = false
          /\ falsy (Cns.source_url (normalizeSource source)) = true)
  /\ ((exists this,
          Cns.constructor NamingServiceSource normalizeSource source =
          inr this)
      <-> falsy (Cns.source_network (normalizeSource source)) = false
          /\ falsy (Cns.source_url (normalizeSource source)) = false).
Proof.
  unfold Cns.constructor. cbv zeta.
  destruct (falsy (Cns.source_network (normalizeSource source)));
    destruct (falsy (Cns.source_url (normalizeSource source)));
    repeat apply conj; intros; try tauto; try discriminate;
    try (split; discriminate || reflexivity);
    try match goal with
        | H : exists _, _ |- _ => destruct H; discriminate
        | H : _ /\ _ |- _ => destruct H; discriminate
        end.
  eexists; reflexivity.
Qed.

(** X10: for a source whose network is not a name inherited from
    [Object.prototype], an instance the constructor builds has the network
    and url of the source; its registry address is the registry of the
    source when that is given and non-empty, otherwise the address of the
    table for "mainnet" and none for any other network; and its registry
    contract is the contract at the registry address, present exactly when
    there is an address.  So an instance for such another network without
    a registry is built, with no registry contract. *)
Theorem constructor_registry
    (NamingServiceSource : Type)
    (normalizeSource : NamingServiceSource -> Cns.SourceDefinition)
    (source : NamingServiceSource) (this : Cns.Instance) :
  Cns.inherited (Cns.source_network (normalizeSource source)) = false ->
  Cns.constructor NamingServiceSource normalizeSource source = inr this ->
  Cns.network this = Cns.source_network (normalizeSource source)
  /\ Cns.url this = Cns.source_url (normalizeSource source)
  /\ Cns.registryContract this =
     (if falsy (Cns.registryAddress this) then None
      else Some (buildContract cnsInterface (Cns.registryAddress this)))
  /\ (falsy (Cns.source_registry (normalizeSource source)) = false ->
      Cns.registryAddress this = Cns.source_registry (normalizeSource source))
  /\ (falsy (Cns.source_registry (normalizeSource source)) = true ->
      (Cns.network this = Some "mainnet" ->
       Cns.registryAddress this =
       Some "0xD1E5b0FF1287aA9f9A268759062E4Ab08b9Dacbe")
      /\ (Cns.network this <> Some "mainnet" ->
          Cns.registryAddress this = None
          /\ Cns.registryContract this = None)).
Proof.
  intros _.
  unfold Cns.constructor. cbv zeta. rewrite lookup_RegistryMap.
  destruct (Cns.source_network (normalizeSource source)) as [name|];
    cbn [falsy]; [|discriminate].
  destruct (String.eqb name ""); [discriminate|].
  destruct (falsy (Cns.source_url (normalizeSource source)));
    [discriminate|].
  destruct (String.eqb_spec "mainnet" name) as [<-|Hne];
    destruct (falsy (Cns.source_registry (normalizeSource source))) eqn:Hr;
    cbn [negb]; intros H; injection H as <-;
    cbn [Cns.network Cns.url Cns.registryAddress Cns.registryContract];
    rewrite ?Hr; repeat apply conj; intros;
    try reflexivity; try discriminate; try congruence;
    split; intros; try reflexivity; try congruence; now split.
Qed.

Lemma constructor_registry_witness :
  Cns.constructor Cns.SourceDefinition (fun source => source)
    (Cns.mkSource (Some "ropsten") (Some "https://ropsten.infura.io") None) =
    inr (Cns.mkCns (Some "ropsten") (Some "https://ropsten.infura.io")
           None None)
  /\ Cns.registryContract
       (Cns.mkCns (Some "ropsten") (Some "https://ropsten.infura.io")
          None None) =
     (if falsy None then None
      else Some (buildContract cnsInterface None)).
Proof.
  split; [reflexivity|].
  exact (proj1 (proj2 (proj2
           (constructor_registry Cns.SourceDefinition (fun source => source)
              (Cns.mkSource (Some "ropsten")
                 (Some "https://ropsten.infura.io") None)
              (Cns.mkCns (Some "ropsten") (Some "https://ropsten.infura.io")
                 None None)
              eq_refl eq_refl)))).
Defined.

(* ================================================================== *)
(** * Further properties of supported domains *)

Lemma string_append_assoc (s t u : string) : (s ++ t) ++ u = s ++ (t ++ u).
Proof. induction s as [|c s IH]; simpl; [reflexivity | now rewrite IH]. Qed.

Lemma forallb_string_append (f : ascii -> bool) (s t : string) :
  forallb_string f (s ++ t) = forallb_string f s && forallb_string f t.
Proof.
  induction s as [|c s IH]; simpl; [reflexivity|].
  now rewrite IH, andb_assoc.
Qed.

(** A part that is not empty, does not begin with a dot and holds no line
    terminator makes a supported domain with [".crypto"]. *)
Lemma isSupportedDomain_intro (p : string) :
  p <> "" -> String.get 0 p <> Some "."%char ->
  no_line_terminator p = true ->
  Cns.isSupportedDomain (p ++ ".crypto") = true.
Proof.
  intros Hne Hdot Hlt. unfold Cns.isSupportedDomain.
  apply orb_true_iff. right. apply andb_true_iff. split.
  - apply indexOf_positive. destruct p as [|c p]; [congruence|].
    exists c, (p ++ ".crypto"). repeat split.
    + simpl in Hdot. congruence.
    + apply indexOf_found.
  - apply RegexFacts.test_spec, matches_supported_pattern. eauto.
Qed.

(** A supported domain is the suffix or a part without line terminator
    followed by [".crypto"]. *)
Lemma isSupportedDomain_inv (domain : string) :
  Cns.isSupportedDomain domain = true ->
  domain = "crypto" \/
  exists p, domain = p ++ ".crypto" /\ no_line_terminator p = true.
Proof.
  unfold Cns.isSupportedDomain.
  rewrite orb_true_iff, andb_true_iff, String.eqb_eq,
    RegexFacts.test_spec, matches_supported_pattern.
  intros [->|[_ (p & -> & _ & Hp)]]; eauto.
Qed.

(** X11: the supported domains are closed under subdomains: for a supported
    parent and a label that is not empty, does not begin with a dot and
    holds no line terminator, [label + "." + parent] is supported. *)
Theorem isSupportedDomain_subdomain (label parent : string) :
  Cns.isSupportedDomain parent = true ->
  label <> "" -> String.get 0 label <> Some "."%char ->
  no_line_terminator label = true ->
  Cns.isSupportedDomain (label ++ "." ++ parent) = true.
Proof.
  intros Hparent Hne Hdot Hlt.
  apply isSupportedDomain_inv in Hparent as [->|(p & -> & Hp)].
  - now apply (isSupportedDomain_intro label).
  - replace (label ++ "." ++ p ++ ".crypto")
      with ((label ++ "." ++ p) ++ ".crypto")
      by now rewrite !string_append_assoc.
    apply isSupportedDomain_intro.
    + destruct label; [congruence | discriminate].
    + destruct label; [congruence | exact Hdot].
    + unfold no_line_terminator in *.
      rewrite !forallb_string_append, Hlt, Hp. reflexivity.
Qed.

Lemma isSupportedDomain_subdomain_witness :
  Cns.isSupportedDomain "ich.ni.san.yon.hello.world.crypto" = true.
Proof.
  apply (isSupportedDomain_subdomain "ich" "ni.san.yon.hello.world.crypto");
    [reflexivity | discriminate | discriminate | reflexivity].
Defined.

(** Two ways to cut the same string overlap. *)
Lemma append_eq_append (s1 s2 t1 t2 : string) :
  s1 ++ s2 = t1 ++ t2 ->
  (exists m, t1 = s1 ++ m /\ s2 = m ++ t2)
  \/ (exists m, s1 = t1 ++ m /\ t2 = m ++ s2).
Proof.
  revert t1. induction s1 as [|c s1 IH]; intros t1 H.
  - left. exists t1. auto.
  - destruct t1 as [|d t1].
    + right. exists (String c s1). auto.
    + simpl in H. injection H as -> H.
      destruct (IH t1 H) as [(m & -> & ->)|(m & -> & ->)];
        [left | right]; exists m; split; reflexivity.
Qed.

(** There is no dot in ["crypto"]. *)
Lemma no_dot_in_crypto (m rest : string) : m ++ String "." rest <> "crypto".
Proof.
  intros H.
  do 6 (destruct m as [|? m]; simpl in H; [discriminate|];
        injection H as _ H).
  destruct m; discriminate.
Qed.

(** X13: a supported domain passes its support on to its parent, unless
    the parent is empty or begins with a dot: when [label + "." + parent]
    is supported and [parent] is not empty and does not begin with a dot,
    [parent] is supported. *)
Theorem isSupportedDomain_parent (label parent : string) :
  Cns.isSupportedDomain (label ++ "." ++ parent) = true ->
  parent <> "" -> String.get 0 parent <> Some "."%char ->
  Cns.isSupportedDomain parent = true.
Proof.
  intros Hchild Hne Hdot.
  apply isSupportedDomain_inv in Hchild as [H|(p & H & Hp)].
  - now apply no_dot_in_crypto in H.
  - assert (Hpart : forall m,
              m <> "" -> parent = m ++ ".crypto" ->
              no_line_terminator m = true ->
              Cns.isSupportedDomain parent = true).
    { intros m Hm -> Hlt. apply isSupportedDomain_intro; auto.
      destruct m; [congruence | exact Hdot]. }
    apply append_eq_append in H as [(m & -> & H)|(m & -> & H)].
    + destruct m as [|c m]; simpl in H.
      * injection H as ->. reflexivity.
      * injection H as <- ->.
        destruct m as [|c m]; [simpl in Hdot; congruence|].
        apply (Hpart (String c m)); [discriminate | reflexivity|].
        unfold no_line_terminator in *.
        rewrite forallb_string_append in Hp.
        apply andb_true_iff in Hp as [_ Hp].
        simpl in Hp. exact Hp.
    + destruct m as [|c m]; simpl in H.
      * injection H as <-. reflexivity.
      * injection H as _ H. symmetry in H.
        now apply no_dot_in_crypto in H.
Qed.

Lemma isSupportedDomain_parent_witness :
  Cns.isSupportedDomain "world.crypto" = true.
Proof.
  apply (isSupportedDomain_parent "hello" "world.crypto");
    [reflexivity | discriminate | discriminate].
Defined.

(** The edge the condition on the parent leaves out: an empty label in the
    middle is accepted, and the parent is then not a supported domain. *)
Example isSupportedDomain_empty_label :
  Cns.isSupportedDomain "a..crypto" = true
  /\ Cns.isSupportedDomain ".crypto" = false.
Proof. split; reflexivity. Qed.

(* ================================================================== *)
(** * Tickers *)

(** X12: [address] reads the ticker through [toUpperCase] only: two tickers
    with the same upper-case form send the same requests, and a value
    returned for one is returned for the other.  The ticker as given shows
    only in the [UnspecifiedCurrency] error. *)
Theorem address_ticker_case
    (toUpperCase : string -> string) (this : Cns.Instance)
    (domain ticker ticker' : string) (t : Transport) :
  toUpperCase ticker = toUpperCase ticker' ->
  sent (Cns.address toUpperCase this domain ticker) t =
  sent (Cns.address toUpperCase this domain ticker') t
  /\ (forall v,
        outcome (Cns.address toUpperCase this domain ticker) t = inr v ->
        outcome (Cns.address toUpperCase this domain ticker') t = inr v)
  /\ (forall e,
        outcome (Cns.address toUpperCase this domain ticker) t = inl e ->
        e <> ResolutionError UnspecifiedCurrency
               [("domain", domain); ("currencyTicker", ticker)] ->
        outcome (Cns.address toUpperCase this domain ticker') t = inl e).
Proof.
  intros Hcase. unfold sent, outcome. rewrite !address_run_any. cbv zeta.
  rewrite <- Hcase.
  destruct (t (resolverOf_request this domain))
    as [[code context|message]|resolver];
    [destruct code|..];
    try (repeat apply conj; [reflexivity | now intros | now intros]);
    (destruct (Cns.namehash domain) as [e0|id];
     [repeat apply conj; [reflexivity | now intros | now intros]|];
     cbn [fst snd];
     destruct (t (get_request _ _ id)) as [e'|v'];
     [repeat apply conj; [reflexivity | now intros | now intros]|];
     destruct (falsy v');
     repeat apply conj; try reflexivity; intros; congruence).
Qed.

Lemma address_ticker_case_witness :
  sent (Cns.address toUpperCase_ascii mainnet "brad.crypto" "btc")
    (mock_backend (Some "0xBD5F5ec7ed5f19b53726344540296C02584A5237") None
       (Some "1EVt92qQnaLDcmVFtHivRJaunG2mf2C3mB")) =
  sent (Cns.address toUpperCase_ascii mainnet "brad.crypto" "BTC")
    (mock_backend (Some "0xBD5F5ec7ed5f19b53726344540296C02584A5237") None
       (Some "1EVt92qQnaLDcmVFtHivRJaunG2mf2C3mB")).
Proof.
  exact (proj1
           (address_ticker_case toUpperCase_ascii mainnet "brad.crypto"
              "btc" "BTC"
              (mock_backend
                 (Some "0xBD5F5ec7ed5f19b53726344540296C02584A5237") None
                 (Some "1EVt92qQnaLDcmVFtHivRJaunG2mf2C3mB"))
              eq_refl)).
Defined.
